(** * vapix_python.OpticsControl: the Optics Control client, embedded and verified

    The module [src/vapix_python/OpticsControl.py] is a thin client: every
    method builds one Python dict literal (the request envelope) and hands it
    to [self.api._send_request_vanilla].  The embedding below keeps that
    shape:

    - Python values that travel in an envelope are the inductive [value];
      a dict is an association list in insertion order (the order of the
      dict literal), a float is an IEEE binary64 value ([spec_float]);
    - a method body is a term of the free monad [prog], whose only effect is
      [SendRequest], the call of the injected transport; [try_except] is the
      handler of [try: ... except Exception: ...];
    - [run] interprets a [prog] against an arbitrary transport (any state
      type, any behaviour) and records every exchange with it. *)

From Stdlib Require Import ZArith String List Bool Lia.
From Stdlib Require Import DecimalString.
From Stdlib Require DecimalPos DecimalZ.
From Stdlib Require Import SpecFloat.
Import ListNotations.

Local Open Scope string_scope.
Local Open Scope list_scope.

Set Implicit Arguments.
Set Warnings "-register-all".

(** ** Python values *)

Module Py.

(** The values the client handles: arguments, envelopes, response bodies. *)
Inductive value : Type :=
| VNone
| VBool (b : bool)
| VInt (n : Z)
| VFloat (f : spec_float)
| VStr (s : string)
| VList (l : list value)
| VDict (d : list (string * value)).

(** [d[k]] on a dict in insertion order (keys of a literal are distinct). *)
Fixpoint dict_get {A : Type} (d : list (string * A)) (k : string) : option A :=
  match d with
  | [] => None
  | (k', v) :: d' => if String.eqb k k' then Some v else dict_get d' k
  end.

Definition keys {A : Type} (d : list (string * A)) : list string :=
  map fst d.

(** A subscript: a dict key or a list index. *)
Inductive subscript : Type :=
| Key (k : string)
| Idx (i : nat).

(** [v[s]], [None] where Python raises [KeyError], [IndexError] or
    [TypeError]. *)
Definition getitem (v : value) (s : subscript) : option value :=
  match v, s with
  | VDict d, Key k => dict_get d k
  | VList l, Idx i => nth_error l i
  | _, _ => None
  end.

(** [v[s1][s2]...[sn]]. *)
Fixpoint getpath (v : value) (p : list subscript) : option value :=
  match p with
  | [] => Some v
  | s :: p' =>
      match getitem v s with
      | Some v' => getpath v' p'
      | None => None
      end
  end.

(** [k in v] for a dict [v]. *)
Definition has_key (v : value) (k : string) : bool :=
  match v with
  | VDict d => existsb (String.eqb k) (keys d)
  | _ => false
  end.

(** An optics id is annotated [Union[str, int]]. *)
Inductive optics_id_t : Type :=
| IdStr (s : string)
| IdInt (n : Z).

(** The builtin [str] on an optics id: the identity on a [str], the
    decimal numeral (with a leading minus sign when negative) on an
    [int]. *)
Definition str (x : optics_id_t) : string :=
  match x with
  | IdStr s => s
  | IdInt n => NilZero.string_of_int (Z.to_int n)
  end.

(** A float literal [n/d] written in decimal, rounded to binary64 as the
    Python parser does (round to nearest, ties to even). *)
Definition float_literal (n d : positive) : spec_float :=
  SFdiv 53 1024 (S754_finite false n 0) (S754_finite false d 0).

(** [0.1], [0.2], [0.5] and [0.6] as binary64 values. *)
Definition f0_1 : spec_float := S754_finite false 7205759403792794 (-56).
Definition f0_2 : spec_float := S754_finite false 7205759403792794 (-55).
Definition f0_5 : spec_float := S754_finite false 4503599627370496 (-53).
Definition f0_6 : spec_float := S754_finite false 5404319552844595 (-53).

(** *** Exceptions

    [except Exception] catches the instances of [Exception] and lets the
    other instances of [BaseException] through. *)

(** Instances of [Exception]: the module's own [OpticsControlError]
    (a [RuntimeError] with a message, an optional code and a details
    payload) and every other error class, by name. *)
Inductive Exception : Type :=
| OpticsControlError (message : string) (code : option Z) (details : value)
| OtherError (cls : string) (message : string).

Inductive BaseException : Type :=
| Error (e : Exception)
| KeyboardInterrupt
| SystemExit (code : value)
| GeneratorExit.

(** The outcome of a call: a returned value or a raised exception. *)
Inductive result (A : Type) : Type :=
| Ok (a : A)
| Err (e : BaseException).
Arguments Err {A} e.

End Py.
Import Py.

(** ** The transport and the free monad of client code *)

(** The arguments of one [_send_request_vanilla(path, method=, json_data=)]
    call. *)
Record request : Type := mk_request {
  path : string;
  http_method : string;
  json_data : value
}.

(** Client code: it returns, raises, or calls the transport and goes on
    with what the transport returned or raised. *)
Inductive prog (A : Type) : Type :=
| Return (a : A)
| Raise (e : BaseException)
| SendRequest (rq : request) (k : result value -> prog A).
Arguments Raise {A} e.
Arguments SendRequest {A} rq k.

Fixpoint bind {A B : Type} (p : prog A) (f : A -> prog B) : prog B :=
  match p with
  | Return a => f a
  | Raise e => Raise e
  | SendRequest rq k => SendRequest rq (fun r => bind (k r) f)
  end.

(** [try: p  except Exception as e: h e]. *)
Fixpoint try_except {A : Type} (p : prog A) (h : Exception -> prog A) : prog A :=
  match p with
  | Return a => Return a
  | Raise (Error e) => h e
  | Raise e => Raise e
  | SendRequest rq k => SendRequest rq (fun r => try_except (k r) h)
  end.

Declare Scope prog_scope.
Delimit Scope prog_scope with prog.
Notation "x <- p ;; q" := (bind p (fun x => q))
  (at level 100, p at next level, right associativity) : prog_scope.
Notation "p ;; q" := (bind p (fun _ => q))
  (at level 100, right associativity) : prog_scope.

(** [self.api._send_request_vanilla(path, method=m, json_data=d)]: the
    parsed body when the transport returns, its exception when it raises. *)
Definition _send_request_vanilla (p : string) (m : string) (d : value) : prog value :=
  SendRequest (mk_request p m d)
    (fun r => match r with Ok v => Return v | Err e => Raise e end).

(** *** Running client code against a transport *)

(** One exchange with the transport: what was sent, what came back. *)
Definition exchange : Type := request * result value.

Section Run.

(** The injected [VapixAPI] object.  Its class is not part of this module,
    so it is a parameter: any state [W] and any behaviour of
    [_send_request_vanilla] on it, returning a body or raising. *)
Variable W : Type.
Variable api : request -> W -> result value * W.

Fixpoint run {A : Type} (p : prog A) (w : W) : result A * W * list exchange :=
  match p with
  | Return a => (Ok a, w, [])
  | Raise e => (Err e, w, [])
  | SendRequest rq k =>
      let (r, w') := api rq w in
      let '(out, w'', tr) := run (k r) w' in
      (out, w'', (rq, r) :: tr)
  end.

Definition outcome {A : Type} (p : prog A) (w : W) : result A :=
  fst (fst (run p w)).

Definition trace {A : Type} (p : prog A) (w : W) : list exchange :=
  snd (run p w).

(** The requests the transport received, in order. *)
Definition emitted {A : Type} (p : prog A) (w : W) : list request :=
  map fst (trace p w).

End Run.

(** ** The client *)

Module OpticsControl.

Local Open Scope prog_scope.

(** The class attribute [RELATIVE_STEP]. *)
Definition RELATIVE_STEP : list (string * string) :=
  [ ("BIG_IN", "+bigStep");
    ("SMALL_IN", "+smallStep");
    ("BIG_OUT", "-bigStep");
    ("SMALL_OUT", "-smallStep") ].

(** A parameter with a default value: [None] when the caller leaves it
    out. *)
Definition default_arg (dflt : value) (a : option value) : value :=
  match a with
  | Some v => v
  | None => dflt
  end.

Definition get_optics : prog value :=
  _send_request_vanilla "opticscontrol.cgi" "POST" (VDict
    [ ("apiVersion", VStr "1.2");
      ("method", VStr "getOptics") ]).

Definition is_available : prog value :=
  try_except
    (get_optics ;;
     Return (VBool true))
    (fun e => Return (VBool false)).

Definition get_capabilities : prog value :=
  _send_request_vanilla "opticscontrol.cgi" "POST" (VDict
    [ ("apiVersion", VStr "1.2");
      ("method", VStr "getCapabilities") ]).

Definition set_focus (optics_id : optics_id_t) (position : value) : prog value :=
  _send_request_vanilla "opticscontrol.cgi" "POST" (VDict
    [ ("apiVersion", VStr "1.2");
      ("method", VStr "setFocus");
      ("params", VDict
        [ ("optics", VList [ VDict
            [ ("opticsId", VStr (str optics_id));
              ("position", position) ] ]) ]) ]) ;;
  Return VNone.

Definition set_relative_focus (optics_id : optics_id_t) (step : value) : prog value :=
  _send_request_vanilla "opticscontrol.cgi" "POST" (VDict
    [ ("apiVersion", VStr "1.2");
      ("method", VStr "setRelativeFocus");
      ("params", VDict
        [ ("optics", VList [ VDict
            [ ("opticsId", VStr (str optics_id));
              ("type", step) ] ]) ]) ]) ;;
  Return VNone.

Definition set_magnification (optics_id : optics_id_t) (magnification : value) : prog value :=
  _send_request_vanilla "opticscontrol.cgi" "POST" (VDict
    [ ("apiVersion", VStr "1.2");
      ("method", VStr "setMagnification");
      ("params", VDict
        [ ("optics", VList [ VDict
            [ ("opticsId", VStr (str optics_id));
              ("magnification", magnification) ] ]) ]) ]) ;;
  Return VNone.

Definition set_relative_magnification (optics_id : optics_id_t) (step : value) : prog value :=
  _send_request_vanilla "opticscontrol.cgi" "POST" (VDict
    [ ("apiVersion", VStr "1.2");
      ("method", VStr "setRelativeMagnification");
      ("params", VDict
        [ ("optics", VList [ VDict
            [ ("opticsId", VStr (str optics_id));
              ("type", step) ] ]) ]) ]) ;;
  Return VNone.

Definition calibrate (optics_id : optics_id_t) (zoom focus : option value) : prog value :=
  let zoom := default_arg (VBool true) zoom in
  let focus := default_arg (VBool true) focus in
  _send_request_vanilla "opticscontrol.cgi" "POST" (VDict
    [ ("apiVersion", VStr "1.2");
      ("method", VStr "calibrate");
      ("params", VDict
        [ ("optics", VList [ VDict
            [ ("opticsId", VStr (str optics_id));
              ("zoom", zoom);
              ("focus", focus) ] ]) ]) ]) ;;
  Return VNone.

Definition reset (optics_id : optics_id_t) (zoom focus : option value) : prog value :=
  let zoom := default_arg (VBool false) zoom in
  let focus := default_arg (VBool true) focus in
  _send_request_vanilla "opticscontrol.cgi" "POST" (VDict
    [ ("apiVersion", VStr "1.2");
      ("method", VStr "reset");
      ("params", VDict
        [ ("optics", VList [ VDict
            [ ("opticsId", VStr (str optics_id));
              ("zoom", zoom);
              ("focus", focus) ] ]) ]) ]) ;;
  Return VNone.

Definition set_focus_window (optics_id : optics_id_t) (x y width height : value) : prog value :=
  _send_request_vanilla "opticscontrol.cgi" "POST" (VDict
    [ ("apiVersion", VStr "1.2");
      ("method", VStr "setFocusWindow");
      ("params", VDict
        [ ("optics", VList [ VDict
            [ ("opticsId", VStr (str optics_id));
              ("focusWindowUpperLeftX", x);
              ("focusWindowUpperLeftY", y);
              ("focusWindowWidth", width);
              ("focusWindowHeight", height) ] ]) ]) ]) ;;
  Return VNone.

Definition perform_autofocus (optics_id : optics_id_t) : prog value :=
  _send_request_vanilla "opticscontrol.cgi" "POST" (VDict
    [ ("apiVersion", VStr "1.2");
      ("method", VStr "performAutofocus");
      ("params", VDict
        [ ("optics", VList [ VDict
            [ ("opticsId", VStr (str optics_id)) ] ]) ]) ]) ;;
  Return VNone.

Definition set_temperature_compensation (optics_id : optics_id_t) (enabled : value) : prog value :=
  _send_request_vanilla "opticscontrol.cgi" "POST" (VDict
    [ ("apiVersion", VStr "1.2");
      ("method", VStr "setTemperatureCompensation");
      ("params", VDict
        [ ("optics", VList [ VDict
            [ ("opticsId", VStr (str optics_id));
              ("enable", enabled) ] ]) ]) ]) ;;
  Return VNone.

Definition set_ir_cut_filter_state (optics_id : optics_id_t) (state : value) : prog value :=
  _send_request_vanilla "opticscontrol.cgi" "POST" (VDict
    [ ("apiVersion", VStr "1.2");
      ("method", VStr "setIrCutFilterState");
      ("params", VDict
        [ ("optics", VList [ VDict
            [ ("opticsId", VStr (str optics_id));
              ("state", state) ] ]) ]) ]) ;;
  Return VNone.

Definition set_ir_compensation (optics_id : optics_id_t) (enabled : value) : prog value :=
  _send_request_vanilla "opticscontrol.cgi" "POST" (VDict
    [ ("apiVersion", VStr "1.2");
      ("method", VStr "setIrCompensation");
      ("params", VDict
        [ ("optics", VList [ VDict
            [ ("opticsId", VStr (str optics_id));
              ("enable", enabled) ] ]) ]) ]) ;;
  Return VNone.

End OpticsControl.
Import OpticsControl.

(** ** Calls of the public operations *)

(** A call of one of the fourteen public operations, with its arguments
    (an omitted optional argument is [None]). *)
Inductive call : Type :=
| CallIsAvailable
| CallGetOptics
| CallGetCapabilities
| CallSetFocus (optics_id : optics_id_t) (position : value)
| CallSetRelativeFocus (optics_id : optics_id_t) (step : value)
| CallSetMagnification (optics_id : optics_id_t) (magnification : value)
| CallSetRelativeMagnification (optics_id : optics_id_t) (step : value)
| CallCalibrate (optics_id : optics_id_t) (zoom focus : option value)
| CallReset (optics_id : optics_id_t) (zoom focus : option value)
| CallSetFocusWindow (optics_id : optics_id_t) (x y width height : value)
| CallPerformAutofocus (optics_id : optics_id_t)
| CallSetTemperatureCompensation (optics_id : optics_id_t) (enabled : value)
| CallSetIrCutFilterState (optics_id : optics_id_t) (state : value)
| CallSetIrCompensation (optics_id : optics_id_t) (enabled : value).

Definition invoke (c : call) : prog value :=
  match c with
  | CallIsAvailable => is_available
  | CallGetOptics => get_optics
  | CallGetCapabilities => get_capabilities
  | CallSetFocus i position => set_focus i position
  | CallSetRelativeFocus i step => set_relative_focus i step
  | CallSetMagnification i m => set_magnification i m
  | CallSetRelativeMagnification i step => set_relative_magnification i step
  | CallCalibrate i zoom focus => calibrate i zoom focus
  | CallReset i zoom focus => reset i zoom focus
  | CallSetFocusWindow i x y width height => set_focus_window i x y width height
  | CallPerformAutofocus i => perform_autofocus i
  | CallSetTemperatureCompensation i enabled => set_temperature_compensation i enabled
  | CallSetIrCutFilterState i state => set_ir_cut_filter_state i state
  | CallSetIrCompensation i enabled => set_ir_compensation i enabled
  end.

(** The Python name of the operation called. *)
Definition operation_name (c : call) : string :=
  match c with
  | CallIsAvailable => "is_available"
  | CallGetOptics => "get_optics"
  | CallGetCapabilities => "get_capabilities"
  | CallSetFocus _ _ => "set_focus"
  | CallSetRelativeFocus _ _ => "set_relative_focus"
  | CallSetMagnification _ _ => "set_magnification"
  | CallSetRelativeMagnification _ _ => "set_relative_magnification"
  | CallCalibrate _ _ _ => "calibrate"
  | CallReset _ _ _ => "reset"
  | CallSetFocusWindow _ _ _ _ _ => "set_focus_window"
  | CallPerformAutofocus _ => "perform_autofocus"
  | CallSetTemperatureCompensation _ _ => "set_temperature_compensation"
  | CallSetIrCutFilterState _ _ => "set_ir_cut_filter_state"
  | CallSetIrCompensation _ _ => "set_ir_compensation"
  end.

(** The operations that take an optics id, and the same call on another
    id. *)
Definition takes_optics_id (c : call) : bool :=
  match c with
  | CallIsAvailable | CallGetOptics | CallGetCapabilities => false
  | _ => true
  end.

Definition with_optics_id (i : optics_id_t) (c : call) : call :=
  match c with
  | CallIsAvailable => CallIsAvailable
  | CallGetOptics => CallGetOptics
  | CallGetCapabilities => CallGetCapabilities
  | CallSetFocus _ position => CallSetFocus i position
  | CallSetRelativeFocus _ step => CallSetRelativeFocus i step
  | CallSetMagnification _ m => CallSetMagnification i m
  | CallSetRelativeMagnification _ step => CallSetRelativeMagnification i step
  | CallCalibrate _ zoom focus => CallCalibrate i zoom focus
  | CallReset _ zoom focus => CallReset i zoom focus
  | CallSetFocusWindow _ x y width height => CallSetFocusWindow i x y width height
  | CallPerformAutofocus _ => CallPerformAutofocus i
  | CallSetTemperatureCompensation _ enabled => CallSetTemperatureCompensation i enabled
  | CallSetIrCutFilterState _ state => CallSetIrCutFilterState i state
  | CallSetIrCompensation _ enabled => CallSetIrCompensation i enabled
  end.

(** The operation-to-method-name table, read off the [method] entries of
    the fourteen method bodies ([is_available] sends what [get_optics]
    sends). *)
Definition METHOD_NAMES : list (string * string) :=
  [ ("is_available", "getOptics");
    ("get_optics", "getOptics");
    ("get_capabilities", "getCapabilities");
    ("set_focus", "setFocus");
    ("set_relative_focus", "setRelativeFocus");
    ("set_magnification", "setMagnification");
    ("set_relative_magnification", "setRelativeMagnification");
    ("calibrate", "calibrate");
    ("reset", "reset");
    ("set_focus_window", "setFocusWindow");
    ("perform_autofocus", "performAutofocus");
    ("set_temperature_compensation", "setTemperatureCompensation");
    ("set_ir_cut_filter_state", "setIrCutFilterState");
    ("set_ir_compensation", "setIrCompensation") ].

(** Where the one optics record of an envelope sits. *)
Definition optics0 (field : string) : list subscript :=
  [Key "params"; Key "optics"; Idx 0; Key field].

(** ** Two transports to run the client against *)

(** A camera that answers every request with an empty data body and counts
    the requests it has served. *)
Definition answering_camera (rq : request) (served : nat) : result value * nat :=
  (Ok (VDict [("apiVersion", VStr "1.2"); ("data", VDict [])]), S served).

(** A camera that cannot be reached: the transport raises every time. *)
Definition unreachable_camera (rq : request) (served : nat) : result value * nat :=
  (Err (Error (OtherError "ConnectionError" "camera unreachable")), served).

(** A run interrupted from the keyboard while the transport waits. *)
Definition interrupted_camera (rq : request) (served : nat) : result value * nat :=
  (Err KeyboardInterrupt, served).

(** A camera whose answer is a body with an [error] member, handed back by
    the transport as it is. *)
Definition refusing_camera (rq : request) (served : nat) : result value * nat :=
  (Ok (VDict [("apiVersion", VStr "1.2");
              ("error", VDict [("code", VInt 1100);
                               ("message", VStr "Internal error")])]),
   S served).

(** ** How [run] goes through the monad's operations *)

Section RunFacts.

Variable W : Type.
Variable api : request -> W -> result value * W.

Lemma run_bind (A B : Type) (p : prog A) (f : A -> prog B) (w : W) :
  run api (bind p f) w =
  match run api p w with
  | (Ok a, w', tr) =>
      let '(out, w'', tr') := run api (f a) w' in (out, w'', tr ++ tr')
  | (Err e, w', tr) => (Err e, w', tr)
  end.
Proof.
  revert w; induction p as [a | e | rq k IH]; intros w; simpl.
  - destruct (run api (f a) w) as [[out w''] tr']; reflexivity.
  - reflexivity.
  - destruct (api rq w) as [r w1].
    rewrite IH.
    destruct (run api (k r) w1) as [[[a | e] w2] tr]; [|reflexivity].
    destruct (run api (f a) w2) as [[out w3] tr']; reflexivity.
Qed.

Lemma run_try_except (A : Type) (p : prog A) (h : Exception -> prog A) (w : W) :
  run api (try_except p h) w =
  match run api p w with
  | (Err (Error e), w', tr) =>
      let '(out, w'', tr') := run api (h e) w' in (out, w'', tr ++ tr')
  | other => other
  end.
Proof.
  revert w; induction p as [a | e | rq k IH]; intros w; simpl.
  - reflexivity.
  - destruct e as [e | | code | ]; try reflexivity.
    destruct (run api (h e) w) as [[out w''] tr']; reflexivity.
  - destruct (api rq w) as [r w1].
    rewrite IH.
    destruct (run api (k r) w1) as [[[a | [e | | code | ]] w2] tr]; try reflexivity.
    destruct (run api (h e) w2) as [[out w3] tr']; reflexivity.
Qed.

(** One call of the transport, its result handed back as it is. *)
Lemma run_send (p m : string) (d : value) (w : W) :
  run api (_send_request_vanilla p m d) w =
  (fst (api (mk_request p m d) w), snd (api (mk_request p m d) w),
   [(mk_request p m d, fst (api (mk_request p m d) w))]).
Proof.
  simpl. destruct (api (mk_request p m d) w) as [[v | e] w']; reflexivity.
Qed.

(** One call of the transport, its body dropped and [a] returned. *)
Lemma run_send_then (A : Type) (p m : string) (d : value) (a : A) (w : W) :
  run api (bind (_send_request_vanilla p m d) (fun _ => Return a)) w =
  (match fst (api (mk_request p m d) w) with
   | Ok _ => Ok a
   | Err e => Err e
   end,
   snd (api (mk_request p m d) w),
   [(mk_request p m d, fst (api (mk_request p m d) w))]).
Proof.
  rewrite run_bind, run_send.
  destruct (api (mk_request p m d) w) as [[v | e] w']; reflexivity.
Qed.

(** What [is_available] does, in closed form. *)
Lemma run_is_available (w : W) :
  run api is_available w =
  (match outcome api get_optics w with
   | Ok _ => Ok (VBool true)
   | Err (Error _) => Ok (VBool false)
   | Err e => Err e
   end,
   snd (fst (run api get_optics w)),
   trace api get_optics w).
Proof.
  unfold is_available, outcome, trace.
  rewrite run_try_except, run_bind.
  unfold get_optics. rewrite run_send. simpl.
  destruct (api _ w) as [[v | [e | | code | ]] w']; reflexivity.
Qed.

End RunFacts.

(** Unfolds a call down to the transport's answer. *)
Ltac run_call :=
  unfold emitted; unfold trace, outcome; unfold invoke;
  unfold get_capabilities, set_focus, set_relative_focus,
    set_magnification, set_relative_magnification, calibrate, reset,
    set_focus_window, perform_autofocus, set_temperature_compensation,
    set_ir_cut_filter_state, set_ir_compensation;
  try rewrite run_is_available;
  unfold trace, outcome, get_optics;
  repeat first [rewrite run_send_then | rewrite run_send];
  cbn [fst snd map].

(** ** The envelope of every operation *)

(** C1. The method-name table has fourteen rows, one per operation, and
    whatever the transport does, every operation emits exactly one envelope,
    posted to [opticscontrol.cgi], whose [apiVersion] entry is the string
    1.2 and whose [method] entry is the row of the table for that
    operation. *)
Theorem envelope_api_version_and_method :
  length METHOD_NAMES = 14%nat /\
  NoDup (keys METHOD_NAMES) /\
  forall (W : Type) (api : request -> W -> result value * W) (c : call) (w : W),
    exists rq m,
      emitted api (invoke c) w = [rq] /\
      path rq = "opticscontrol.cgi" /\
      http_method rq = "POST" /\
      getitem (json_data rq) (Key "apiVersion") = Some (VStr "1.2") /\
      dict_get METHOD_NAMES (operation_name c) = Some m /\
      getitem (json_data rq) (Key "method") = Some (VStr m).
Proof.
  split; [reflexivity|].
  split.
  - unfold keys; simpl.
    repeat (constructor; [simpl; intuition discriminate|]).
    constructor.
  - intros W api c w.
    destruct c; run_call;
      (eexists; eexists; split; [reflexivity|]);
      repeat split; reflexivity.
Qed.

(** ** Errors of the transport *)

(** C2. Whenever the transport raises an error (an instance of
    [Exception]) during [is_available], the check returns [False] and
    nothing propagates; and the check returns [True] exactly when the
    [get_optics] fetch it performs returns a body. *)
Theorem is_available_swallows_errors :
  forall (W : Type) (api : request -> W -> result value * W) (w : W),
    (forall (rq : request) (e : Exception),
        In (rq, Err (Error e)) (trace api is_available w) ->
        outcome api is_available w = Ok (VBool false)) /\
    (outcome api is_available w = Ok (VBool true) <->
     exists body, outcome api get_optics w = Ok body).
Proof.
  intros W api w.
  unfold outcome at 1 2, trace at 1.
  rewrite run_is_available; cbn [fst snd].
  split.
  - intros rq e Hin.
    unfold trace, outcome, get_optics in *.
    rewrite run_send in *; cbn [fst snd] in *.
    destruct Hin as [Heq | []].
    injection Heq as _ Hraised.
    rewrite Hraised; reflexivity.
  - destruct (outcome api get_optics w) as [body | [e | | code | ]]; split;
      try discriminate; try (intros [body' Hbody]; discriminate).
    + intros _; exists body; reflexivity.
    + reflexivity.
Qed.

(** The check against a camera that cannot be reached. *)
Lemma is_available_swallows_errors_witness :
  In (mk_request "opticscontrol.cgi" "POST"
        (VDict [("apiVersion", VStr "1.2"); ("method", VStr "getOptics")]),
      Err (Error (OtherError "ConnectionError" "camera unreachable")))
     (trace unreachable_camera is_available 0%nat) /\
  outcome unreachable_camera is_available 0%nat = Ok (VBool false).
Proof.
  split.
  - simpl; left; reflexivity.
  - apply (proj1 (is_available_swallows_errors unreachable_camera 0%nat))
      with (rq := mk_request "opticscontrol.cgi" "POST"
                    (VDict [("apiVersion", VStr "1.2"); ("method", VStr "getOptics")]))
           (e := OtherError "ConnectionError" "camera unreachable").
    simpl; left; reflexivity.
Defined.

(** What [except Exception] lets through: an exception that is not an
    instance of [Exception] leaves [is_available] as it was raised. *)
Lemma is_available_base_exception :
  outcome interrupted_camera is_available 0%nat = Err KeyboardInterrupt.
Proof. reflexivity. Qed.

(** C3. For every operation other than [is_available], an exception raised
    by the transport is the exception the operation raises, and the
    exchange in which it was raised is the only one: nothing is wrapped,
    retried or recovered. *)
Theorem transport_error_propagates :
  forall (W : Type) (api : request -> W -> result value * W)
         (c : call) (w : W) (rq : request) (e : BaseException),
    c <> CallIsAvailable ->
    In (rq, Err e) (trace api (invoke c) w) ->
    outcome api (invoke c) w = Err e /\
    trace api (invoke c) w = [(rq, Err e)].
Proof.
  intros W api c w rq e Hc.
  destruct c; [congruence | ..]; clear Hc; run_call;
    (intros [Heq | []]; injection Heq as Hrq Hraised;
     rewrite Hraised, Hrq; split; reflexivity).
Qed.

(** [set_magnification] against a camera that cannot be reached. *)
Lemma transport_error_propagates_witness :
  let c := CallSetMagnification (IdInt 1) (VInt 4) in
  let rq := mk_request "opticscontrol.cgi" "POST"
              (VDict [("apiVersion", VStr "1.2"); ("method", VStr "setMagnification");
                      ("params", VDict [("optics", VList [VDict
                         [("opticsId", VStr "1"); ("magnification", VInt 4)]])])]) in
  let e := Error (OtherError "ConnectionError" "camera unreachable") in
  c <> CallIsAvailable /\
  In (rq, Err e) (trace unreachable_camera (invoke c) 0%nat) /\
  outcome unreachable_camera (invoke c) 0%nat = Err e /\
  trace unreachable_camera (invoke c) 0%nat = [(rq, Err e)].
Proof.
  intros c rq e.
  assert (Hc : c <> CallIsAvailable) by discriminate.
  assert (Hin : In (rq, Err e) (trace unreachable_camera (invoke c) 0%nat))
    by (simpl; left; reflexivity).
  split; [exact Hc|]; split; [exact Hin|].
  exact (@transport_error_propagates nat unreachable_camera c 0%nat rq e Hc Hin).
Defined.

(** ** The envelopes of the parameter-taking operations *)

(** C4. [set_focus(id, pos)] sends exactly one request; in its body
    [params.optics[0].opticsId] is [str(id)], [params.optics[0].position]
    is [pos] and [method] is [setFocus]. *)
Theorem set_focus_request :
  forall (W : Type) (api : request -> W -> result value * W)
         (optics_id : optics_id_t) (position : value) (w : W),
    exists rq,
      emitted api (set_focus optics_id position) w = [rq] /\
      getpath (json_data rq) (optics0 "opticsId") = Some (VStr (str optics_id)) /\
      getpath (json_data rq) (optics0 "position") = Some position /\
      getitem (json_data rq) (Key "method") = Some (VStr "setFocus").
Proof.
  intros; run_call.
  eexists; split; [reflexivity|].
  repeat split.
Qed.

(** C5. With both flags left out, [calibrate(id)] sends [zoom: True] and
    [focus: True], and [reset(id)] sends [zoom: False] and [focus: True]. *)
Theorem calibrate_reset_default_flags :
  forall (W : Type) (api : request -> W -> result value * W)
         (optics_id : optics_id_t) (w : W),
    (exists rq,
        emitted api (calibrate optics_id None None) w = [rq] /\
        getpath (json_data rq) (optics0 "zoom") = Some (VBool true) /\
        getpath (json_data rq) (optics0 "focus") = Some (VBool true)) /\
    (exists rq,
        emitted api (reset optics_id None None) w = [rq] /\
        getpath (json_data rq) (optics0 "zoom") = Some (VBool false) /\
        getpath (json_data rq) (optics0 "focus") = Some (VBool true)).
Proof.
  intros; split; run_call;
    (eexists; split; [reflexivity|]; split; reflexivity).
Qed.

(** A flag the caller passes replaces the default. *)
Lemma calibrate_explicit_flags :
  forall (W : Type) (api : request -> W -> result value * W)
         (optics_id : optics_id_t) (zoom focus : value) (w : W),
    exists rq,
      emitted api (calibrate optics_id (Some zoom) (Some focus)) w = [rq] /\
      getpath (json_data rq) (optics0 "zoom") = Some zoom /\
      getpath (json_data rq) (optics0 "focus") = Some focus.
Proof.
  intros; run_call.
  eexists; split; [reflexivity|]; split; reflexivity.
Qed.

(** The four binary64 constants are the decimal literals of the source. *)
Lemma float_literals :
  float_literal 1 10 = f0_1 /\ float_literal 2 10 = f0_2 /\
  float_literal 5 10 = f0_5 /\ float_literal 6 10 = f0_6.
Proof. repeat split; vm_compute; reflexivity. Qed.

(** The focus window is passed through field by field. *)
Lemma set_focus_window_fields :
  forall (W : Type) (api : request -> W -> result value * W)
         (optics_id : optics_id_t) (x y width height : value) (w : W),
    exists rq,
      emitted api (set_focus_window optics_id x y width height) w = [rq] /\
      getpath (json_data rq) (optics0 "focusWindowUpperLeftX") = Some x /\
      getpath (json_data rq) (optics0 "focusWindowUpperLeftY") = Some y /\
      getpath (json_data rq) (optics0 "focusWindowWidth") = Some width /\
      getpath (json_data rq) (optics0 "focusWindowHeight") = Some height /\
      getitem (json_data rq) (Key "method") = Some (VStr "setFocusWindow").
Proof.
  intros; run_call.
  eexists; split; [reflexivity|].
  repeat split.
Qed.

(** C7. [set_focus_window(id, 0.1, 0.2, 0.5, 0.6)] sends a body whose
    optics record has [focusWindowUpperLeftX] 0.1, [focusWindowUpperLeftY]
    0.2, [focusWindowWidth] 0.5 and [focusWindowHeight] 0.6, under the
    method name [setFocusWindow]. *)
Theorem set_focus_window_request :
  forall (W : Type) (api : request -> W -> result value * W)
         (optics_id : optics_id_t) (w : W),
    exists rq,
      emitted api
        (set_focus_window optics_id
           (VFloat f0_1) (VFloat f0_2) (VFloat f0_5) (VFloat f0_6)) w = [rq] /\
      getpath (json_data rq) (optics0 "opticsId") = Some (VStr (str optics_id)) /\
      getpath (json_data rq) (optics0 "focusWindowUpperLeftX") = Some (VFloat f0_1) /\
      getpath (json_data rq) (optics0 "focusWindowUpperLeftY") = Some (VFloat f0_2) /\
      getpath (json_data rq) (optics0 "focusWindowWidth") = Some (VFloat f0_5) /\
      getpath (json_data rq) (optics0 "focusWindowHeight") = Some (VFloat f0_6) /\
      getitem (json_data rq) (Key "method") = Some (VStr "setFocusWindow").
Proof.
  intros W api optics_id w.
  destruct (set_focus_window_fields api optics_id
              (VFloat f0_1) (VFloat f0_2) (VFloat f0_5) (VFloat f0_6) w)
    as (rq & Hrq & Hx & Hy & Hwidth & Hheight & Hmethod).
  exists rq; repeat split; try assumption.
  revert Hrq; run_call.
  intros Hrq; injection Hrq as <-; reflexivity.
Qed.

(** C8. Whatever string is passed as the step, [set_relative_focus] and
    [set_relative_magnification] send it as the [type] entry of the optics
    record, in one request, and raise nothing of their own: they return
    [None] when the transport returns and raise what the transport
    raises. *)
Theorem relative_step_forwarded_unchanged :
  forall (W : Type) (api : request -> W -> result value * W)
         (optics_id : optics_id_t) (step : string) (w : W),
    (exists rq r,
        trace api (set_relative_focus optics_id (VStr step)) w = [(rq, r)] /\
        getpath (json_data rq) (optics0 "type") = Some (VStr step) /\
        getitem (json_data rq) (Key "method") = Some (VStr "setRelativeFocus") /\
        outcome api (set_relative_focus optics_id (VStr step)) w =
        match r with Ok _ => Ok VNone | Err e => Err e end) /\
    (exists rq r,
        trace api (set_relative_magnification optics_id (VStr step)) w = [(rq, r)] /\
        getpath (json_data rq) (optics0 "type") = Some (VStr step) /\
        getitem (json_data rq) (Key "method") = Some (VStr "setRelativeMagnification") /\
        outcome api (set_relative_magnification optics_id (VStr step)) w =
        match r with Ok _ => Ok VNone | Err e => Err e end).
Proof.
  intros; split; run_call;
    (eexists; eexists; split; [reflexivity|]; repeat split).
Qed.

(** A token outside [RELATIVE_STEP] reaches the camera as it is. *)
Lemma unsanctioned_step_is_sent :
  emitted answering_camera (set_relative_focus (IdInt 1) (VStr "sideways")) 0%nat =
  [mk_request "opticscontrol.cgi" "POST"
     (VDict [("apiVersion", VStr "1.2"); ("method", VStr "setRelativeFocus");
             ("params", VDict [("optics", VList [VDict
                [("opticsId", VStr "1"); ("type", VStr "sideways")]])])])] /\
  outcome answering_camera (set_relative_focus (IdInt 1) (VStr "sideways")) 0%nat =
  Ok VNone.
Proof. split; reflexivity. Qed.

(** ** The relative-step constants *)

(** A key that [dict_get] finds is one of the dict's keys. *)
Lemma dict_get_keys (A : Type) (d : list (string * A)) (k : string) (v : A) :
  dict_get d k = Some v -> In k (keys d).
Proof.
  induction d as [| [k' v'] d IH]; simpl.
  - discriminate.
  - destruct (String.eqb_spec k k') as [-> | Hne].
    + intros _; left; reflexivity.
    + intros Hget; right; apply IH, Hget.
Qed.

(** C6. [RELATIVE_STEP] sends [BIG_IN], [SMALL_IN], [BIG_OUT] and
    [SMALL_OUT] to [+bigStep], [+smallStep], [-bigStep] and [-smallStep],
    and these four are all its keys. *)
Theorem RELATIVE_STEP_entries :
  dict_get RELATIVE_STEP "BIG_IN" = Some "+bigStep" /\
  dict_get RELATIVE_STEP "SMALL_IN" = Some "+smallStep" /\
  dict_get RELATIVE_STEP "BIG_OUT" = Some "-bigStep" /\
  dict_get RELATIVE_STEP "SMALL_OUT" = Some "-smallStep" /\
  keys RELATIVE_STEP = ["BIG_IN"; "SMALL_IN"; "BIG_OUT"; "SMALL_OUT"] /\
  (forall k : string,
      dict_get RELATIVE_STEP k = None <->
      ~ In k ["BIG_IN"; "SMALL_IN"; "BIG_OUT"; "SMALL_OUT"]).
Proof.
  repeat (split; [reflexivity|]).
  intros k; split.
  - intros Hnone Hin.
    unfold RELATIVE_STEP in Hnone; simpl in Hin, Hnone.
    destruct Hin as [<- | [<- | [<- | [<- | []]]]]; discriminate Hnone.
  - intros Hout.
    destruct (dict_get RELATIVE_STEP k) as [v |] eqn:Hget; [|reflexivity].
    exfalso; apply Hout.
    exact (dict_get_keys RELATIVE_STEP k Hget).
Qed.

(** ** The optics id *)

(** [str] on ints writes the decimal numeral. *)
Lemma str_int_examples :
  str (IdInt 0) = "0" /\ str (IdInt 7) = "7" /\
  str (IdInt 1205) = "1205" /\ str (IdInt (-12)) = "-12".
Proof. repeat split. Qed.

(** C9. Every operation that takes an optics id puts [str] of it in the
    [opticsId] entry of its one optics record; hence a call with the int
    [n] and the same call with the string [str(n)] are the same client
    code, and against any transport they send the same request body and
    end the same way. *)
Theorem optics_id_coerced_with_str :
  forall (W : Type) (api : request -> W -> result value * W) (c : call) (w : W),
    takes_optics_id c = true ->
    (forall i : optics_id_t,
        exists rq,
          emitted api (invoke (with_optics_id i c)) w = [rq] /\
          getpath (json_data rq) (optics0 "opticsId") = Some (VStr (str i))) /\
    (forall n : Z,
        invoke (with_optics_id (IdInt n) c) =
        invoke (with_optics_id (IdStr (str (IdInt n))) c) /\
        run api (invoke (with_optics_id (IdInt n) c)) w =
        run api (invoke (with_optics_id (IdStr (str (IdInt n))) c)) w).
Proof.
  intros W api c w Htakes.
  split.
  - intros i.
    destruct c; try discriminate Htakes; cbn [with_optics_id]; run_call;
      (eexists; split; reflexivity).
  - intros n.
    assert (Hsame : invoke (with_optics_id (IdInt n) c) =
                    invoke (with_optics_id (IdStr (str (IdInt n))) c))
      by (destruct c; reflexivity).
    split; [exact Hsame | rewrite Hsame; reflexivity].
Qed.

(** [perform_autofocus(7)] and [perform_autofocus("7")]. *)
Lemma optics_id_coerced_with_str_witness :
  takes_optics_id (CallPerformAutofocus (IdInt 0)) = true /\
  (exists rq,
      emitted answering_camera (perform_autofocus (IdInt 7)) 0%nat = [rq] /\
      getpath (json_data rq) (optics0 "opticsId") = Some (VStr "7")) /\
  run answering_camera (perform_autofocus (IdInt 7)) 0%nat =
  run answering_camera (perform_autofocus (IdStr "7")) 0%nat.
Proof.
  assert (Htakes : takes_optics_id (CallPerformAutofocus (IdInt 0)) = true)
    by reflexivity.
  split; [exact Htakes|].
  split.
  - exact (proj1 (@optics_id_coerced_with_str nat answering_camera
                    (CallPerformAutofocus (IdInt 0)) 0%nat Htakes) (IdInt 7)).
  - exact (proj2 (proj2 (@optics_id_coerced_with_str nat answering_camera
                           (CallPerformAutofocus (IdInt 0)) 0%nat Htakes) 7%Z)).
Defined.

(** ** Envelopes with and without [params] *)

(** C10. The envelopes of [get_optics] and [get_capabilities] are dicts
    with the two keys [apiVersion] and [method] and no [params] key (and
    [is_available] sends nothing but the envelope of [get_optics]); the
    envelope of every operation that takes an optics id has a [params]
    entry whose [optics] entry is a list of exactly one element. *)
Theorem params_only_with_optics_id :
  forall (W : Type) (api : request -> W -> result value * W) (w : W),
    (exists rq d,
        emitted api get_optics w = [rq] /\
        json_data rq = VDict d /\
        keys d = ["apiVersion"; "method"] /\
        has_key (json_data rq) "params" = false) /\
    (exists rq d,
        emitted api get_capabilities w = [rq] /\
        json_data rq = VDict d /\
        keys d = ["apiVersion"; "method"] /\
        has_key (json_data rq) "params" = false) /\
    emitted api is_available w = emitted api get_optics w /\
    (forall c : call,
        takes_optics_id c = true ->
        exists rq record,
          emitted api (invoke c) w = [rq] /\
          has_key (json_data rq) "params" = true /\
          getpath (json_data rq) [Key "params"; Key "optics"] =
          Some (VList [record])).
Proof.
  intros W api w.
  split; [|split; [|split]].
  - run_call. eexists; eexists; repeat split.
  - run_call. eexists; eexists; repeat split.
  - unfold emitted, trace at 1. rewrite run_is_available. reflexivity.
  - intros c Htakes.
    destruct c; try discriminate Htakes; run_call;
      (eexists; eexists; repeat split).
Qed.

(** The envelope of [set_ir_cut_filter_state(2, "auto")]. *)
Lemma params_only_with_optics_id_witness :
  takes_optics_id (CallSetIrCutFilterState (IdInt 2) (VStr "auto")) = true /\
  exists rq record,
    emitted answering_camera
      (invoke (CallSetIrCutFilterState (IdInt 2) (VStr "auto"))) 0%nat = [rq] /\
    has_key (json_data rq) "params" = true /\
    getpath (json_data rq) [Key "params"; Key "optics"] = Some (VList [record]).
Proof.
  split; [reflexivity|].
  apply (proj2 (proj2 (proj2
           (@params_only_with_optics_id nat answering_camera 0%nat)))
           (CallSetIrCutFilterState (IdInt 2) (VStr "auto"))).
  reflexivity.
Defined.

(** ** What the operations hand back *)

(** X1. [get_optics] and [get_capabilities] hand back what the transport
    gave for their one request, body or exception, with nothing done to
    it. *)
Theorem getters_return_transport_answer :
  forall (W : Type) (api : request -> W -> result value * W) (w : W),
    (exists rq r,
        trace api get_optics w = [(rq, r)] /\
        outcome api get_optics w = r) /\
    (exists rq r,
        trace api get_capabilities w = [(rq, r)] /\
        outcome api get_capabilities w = r).
Proof.
  intros W api w; split; run_call;
    (eexists; eexists; split; reflexivity).
Qed.

(** X2. An operation that takes an optics id never looks at the response:
    whatever body the transport returns, the operation returns [None]. *)
Theorem setters_ignore_response_body :
  forall (W : Type) (api : request -> W -> result value * W)
         (c : call) (w : W) (rq : request) (body : value),
    takes_optics_id c = true ->
    In (rq, Ok body) (trace api (invoke c) w) ->
    outcome api (invoke c) w = Ok VNone.
Proof.
  intros W api c w rq body Htakes.
  destruct c; try discriminate Htakes; clear Htakes; run_call;
    (intros [Heq | []]; injection Heq as _ Hbody;
     rewrite Hbody; reflexivity).
Qed.

(** [set_focus] against a camera that answers with an [error] member. *)
Lemma setters_ignore_response_body_witness :
  let c := CallSetFocus (IdInt 1) (VFloat f0_5) in
  let rq := mk_request "opticscontrol.cgi" "POST"
              (VDict [("apiVersion", VStr "1.2"); ("method", VStr "setFocus");
                      ("params", VDict [("optics", VList [VDict
                         [("opticsId", VStr "1"); ("position", VFloat f0_5)]])])]) in
  let body := VDict [("apiVersion", VStr "1.2");
                     ("error", VDict [("code", VInt 1100);
                                      ("message", VStr "Internal error")])] in
  takes_optics_id c = true /\
  In (rq, Ok body) (trace refusing_camera (invoke c) 0%nat) /\
  outcome refusing_camera (invoke c) 0%nat = Ok VNone.
Proof.
  intros c rq body.
  assert (Htakes : takes_optics_id c = true) by reflexivity.
  assert (Hin : In (rq, Ok body) (trace refusing_camera (invoke c) 0%nat))
    by (simpl; left; reflexivity).
  split; [exact Htakes|]; split; [exact Hin|].
  exact (@setters_ignore_response_body nat refusing_camera c 0%nat rq body Htakes Hin).
Defined.



(** X4. [is_available] ends in one of two ways: it returns a bool, or it
    raises an exception that the transport raised and that is not an
    instance of [Exception].  It never raises an instance of [Exception],
    and it costs the transport exactly the exchange of [get_optics]. *)
Theorem is_available_outcomes :
  forall (W : Type) (api : request -> W -> result value * W) (w : W),
    ((exists b, outcome api is_available w = Ok (VBool b)) \/
     (exists e rq,
         outcome api is_available w = Err e /\
         (forall x, e <> Error x) /\
         In (rq, Err e) (trace api is_available w))) /\
    trace api is_available w = trace api get_optics w /\
    snd (fst (run api is_available w)) = snd (fst (run api get_optics w)).
Proof.
  intros W api w.
  unfold outcome at 1 2, trace at 1 2.
  rewrite run_is_available; cbn [fst snd].
  split; [|split; reflexivity].
  unfold trace, outcome, get_optics; rewrite run_send; cbn [fst snd].
  destruct (api _ w) as [[body | [x | | code | ]] w'] eqn:Hanswer; cbn [fst snd].
  - left; exists true; reflexivity.
  - left; exists false; reflexivity.
  - right; eexists; eexists; split; [reflexivity|];
      split; [discriminate | left; reflexivity].
  - right; eexists; eexists; split; [reflexivity|];
      split; [discriminate | left; reflexivity].
  - right; eexists; eexists; split; [reflexivity|];
      split; [discriminate | left; reflexivity].
Qed.

(** X5. The client keeps no state: what an operation sends depends on its
    arguments only, not on the transport, its state or its answers. *)
Theorem requests_independent_of_transport :
  forall (c : call)
         (W1 : Type) (api1 : request -> W1 -> result value * W1) (w1 : W1)
         (W2 : Type) (api2 : request -> W2 -> result value * W2) (w2 : W2),
    emitted api1 (invoke c) w1 = emitted api2 (invoke c) w2.
Proof.
  intros c W1 api1 w1 W2 api2 w2.
  destruct c; do 2 run_call; reflexivity.
Qed.

(** ** The optics record, operation by operation *)

(** X6. [set_magnification] sends its value under [magnification],
    [set_ir_cut_filter_state] under [state]; [set_temperature_compensation]
    and [set_ir_compensation] send the [enabled] argument under the key
    [enable]; the record of [perform_autofocus] holds the optics id and
    nothing else.  No value is checked, converted or clamped. *)
Theorem remaining_setters_forward_arguments :
  forall (W : Type) (api : request -> W -> result value * W)
         (optics_id : optics_id_t) (v : value) (w : W),
    (exists rq,
        emitted api (set_magnification optics_id v) w = [rq] /\
        getpath (json_data rq) (optics0 "magnification") = Some v) /\
    (exists rq,
        emitted api (set_ir_cut_filter_state optics_id v) w = [rq] /\
        getpath (json_data rq) (optics0 "state") = Some v) /\
    (exists rq,
        emitted api (set_temperature_compensation optics_id v) w = [rq] /\
        getpath (json_data rq) (optics0 "enable") = Some v /\
        getpath (json_data rq) (optics0 "enabled") = None) /\
    (exists rq,
        emitted api (set_ir_compensation optics_id v) w = [rq] /\
        getpath (json_data rq) (optics0 "enable") = Some v /\
        getpath (json_data rq) (optics0 "enabled") = None) /\
    (exists rq,
        emitted api (perform_autofocus optics_id) w = [rq] /\
        getpath (json_data rq) [Key "params"; Key "optics"] =
        Some (VList [VDict [("opticsId", VStr (str optics_id))]])).
Proof.
  intros W api optics_id v w.
  repeat split; run_call; eexists; (split; [reflexivity|]); repeat split.
Qed.

(** X7. [calibrate] and [reset] called with the same arguments send the
    same [params] exactly when the zoom flag is given: with the method
    name, the default of [zoom] is all that tells them apart. *)
Theorem calibrate_reset_differ_by_zoom_default :
  forall (W : Type) (api : request -> W -> result value * W)
         (optics_id : optics_id_t) (zoom focus : option value) (w : W),
    exists rq1 rq2,
      emitted api (calibrate optics_id zoom focus) w = [rq1] /\
      emitted api (reset optics_id zoom focus) w = [rq2] /\
      (getitem (json_data rq1) (Key "params") =
       getitem (json_data rq2) (Key "params") <-> zoom <> None).
Proof.
  intros W api optics_id zoom focus w; run_call.
  eexists; eexists; split; [reflexivity|]; split; [reflexivity|].
  destruct zoom as [z |]; cbn; split.
  - discriminate.
  - reflexivity.
  - intros Hsame; congruence.
  - intros Hnone; congruence.
Qed.

(** X8. The two relative operations send the same [params] for the same
    id and step, and so do the two compensation switches for the same id
    and flag: within each pair only the method name differs. *)
Theorem sibling_operations_share_params :
  forall (W : Type) (api : request -> W -> result value * W)
         (optics_id : optics_id_t) (v : value) (w : W),
    (exists rq1 rq2,
        emitted api (set_relative_focus optics_id v) w = [rq1] /\
        emitted api (set_relative_magnification optics_id v) w = [rq2] /\
        getitem (json_data rq1) (Key "params") =
        getitem (json_data rq2) (Key "params") /\
        getitem (json_data rq1) (Key "method") <>
        getitem (json_data rq2) (Key "method")) /\
    (exists rq1 rq2,
        emitted api (set_temperature_compensation optics_id v) w = [rq1] /\
        emitted api (set_ir_compensation optics_id v) w = [rq2] /\
        getitem (json_data rq1) (Key "params") =
        getitem (json_data rq2) (Key "params") /\
        getitem (json_data rq1) (Key "method") <>
        getitem (json_data rq2) (Key "method")).
Proof.
  intros W api optics_id v w; split; run_call;
    (eexists; eexists; split; [reflexivity|]; split; [reflexivity|];
     split; [reflexivity | cbn; discriminate]).
Qed.

(** ** Which optics ids meet on the wire *)

(** [str] tells two ints apart. *)
Lemma str_int_inj (n m : Z) : str (IdInt n) = str (IdInt m) -> n = m.
Proof.
  unfold str; intros Hstr.
  apply DecimalZ.to_int_inj.
  assert (Hparse : forall z : Z,
             NilZero.int_of_string (NilZero.string_of_int (Z.to_int z))
             = Some (Z.to_int z)).
  { intros z; apply NilZero.isi; destruct z as [| p | p]; try discriminate;
      cbn; intros Hnil; injection Hnil as Hnil;
      exact (DecimalPos.Unsigned.to_uint_nonnil p Hnil). }
  pose proof (Hparse n) as Hn; rewrite Hstr, Hparse in Hn.
  injection Hn as Hn; symmetry; exact Hn.
Qed.

(** X9. Two calls of an operation that differ in the optics id only send
    the same request exactly when [str] gives the two ids the same
    string. *)
Theorem same_request_iff_same_str :
  forall (W : Type) (api : request -> W -> result value * W)
         (c : call) (i j : optics_id_t) (w : W),
    takes_optics_id c = true ->
    (emitted api (invoke (with_optics_id i c)) w =
     emitted api (invoke (with_optics_id j c)) w <-> str i = str j).
Proof.
  intros W api c i j w Htakes.
  destruct c; try discriminate Htakes; clear Htakes;
    cbn [with_optics_id]; run_call;
    (split; [intros Hsame; congruence | intros ->; reflexivity]).
Qed.

(** [set_focus] on the unit 3 given as an int and as a string. *)
Lemma same_request_iff_same_str_witness :
  takes_optics_id (CallSetFocus (IdInt 0) (VFloat f0_5)) = true /\
  emitted answering_camera (set_focus (IdInt 3) (VFloat f0_5)) 0%nat =
  emitted answering_camera (set_focus (IdStr "3") (VFloat f0_5)) 0%nat.
Proof.
  assert (Htakes : takes_optics_id (CallSetFocus (IdInt 0) (VFloat f0_5)) = true)
    by reflexivity.
  split; [exact Htakes|].
  apply (proj2 (@same_request_iff_same_str nat answering_camera
                  (CallSetFocus (IdInt 0) (VFloat f0_5))
                  (IdInt 3) (IdStr "3") 0%nat Htakes)).
  reflexivity.
Defined.

(** X10. Two different int ids never meet: an operation called on the ints
    [n] and [m] sends the same request only if [n = m]. *)
Theorem distinct_int_ids_distinct_requests :
  forall (W : Type) (api : request -> W -> result value * W)
         (c : call) (n m : Z) (w : W),
    takes_optics_id c = true ->
    emitted api (invoke (with_optics_id (IdInt n) c)) w =
    emitted api (invoke (with_optics_id (IdInt m) c)) w ->
    n = m.
Proof.
  intros W api c n m w Htakes Hsame.
  apply str_int_inj.
  destruct c; try discriminate Htakes; clear Htakes;
    cbn [with_optics_id] in Hsame; revert Hsame; run_call;
    intros Hsame; congruence.
Qed.

(** [reset] on the unit 12, twice. *)
Lemma distinct_int_ids_distinct_requests_witness :
  takes_optics_id (CallReset (IdInt 0) None None) = true /\
  emitted answering_camera (reset (IdInt 12) None None) 0%nat =
  emitted answering_camera (reset (IdInt 12) None None) 0%nat /\
  12%Z = 12%Z.
Proof.
  assert (Htakes : takes_optics_id (CallReset (IdInt 0) None None) = true)
    by reflexivity.
  assert (Hsame : emitted answering_camera
                    (invoke (with_optics_id (IdInt 12) (CallReset (IdInt 0) None None))) 0%nat =
                  emitted answering_camera
                    (invoke (with_optics_id (IdInt 12) (CallReset (IdInt 0) None None))) 0%nat)
    by reflexivity.
  split; [exact Htakes|]; split; [exact Hsame|].
  exact (@distinct_int_ids_distinct_requests nat answering_camera
           (CallReset (IdInt 0) None None) 12%Z 12%Z 0%nat Htakes Hsame).
Defined.

(** ** The shape of every envelope *)

(** X11. An envelope is a dict with the keys [apiVersion], [method] and,
    for the operations that take an optics id, [params], in this order
    and with no other key; [params] then has the one key [optics], whose
    list holds one record that starts with [opticsId]. *)
Theorem envelope_shape :
  forall (W : Type) (api : request -> W -> result value * W) (c : call) (w : W),
    exists rq d,
      emitted api (invoke c) w = [rq] /\
      json_data rq = VDict d /\
      keys d = (if takes_optics_id c
                then ["apiVersion"; "method"; "params"]
                else ["apiVersion"; "method"]) /\
      (if takes_optics_id c
       then exists record,
           dict_get d "params" = Some (VDict [("optics", VList [VDict record])]) /\
           hd_error (keys record) = Some "opticsId"
       else dict_get d "params" = None).
Proof.
  intros W api c w.
  destruct c; run_call;
    (eexists; eexists; split; [reflexivity|]; split; [reflexivity|];
     split; [reflexivity|]; cbn;
     try reflexivity; eexists; split; reflexivity).
Qed.
